(** * pelicanconf.py: the settings module of blog.baturin.org

    The repository is one Python module, [pelicanconf.py], whose body is a
    straight line of name bindings.  Executing the module body against a
    namespace (the module's [globals()]) is modelled by explicit state
    passing over a finite map from names to Python values. *)

From Stdlib Require Import ZArith Ascii String.
From stdpp Require Import gmap strings list fin_maps.

Local Open Scope string_scope.
Local Open Scope Z_scope.

(** ** Python values occurring in the module *)

Module Py.

(** The literals of the module: [None], [True], an [int], [str]s (unicode,
    by the [unicode_literals] future import; all of them ASCII), a tuple of
    tuples and a list.  [VFeature] is the [__future__._Feature] object that
    a [from __future__ import ...] statement binds. *)
#[warnings="-register-all"]
Inductive value : Type :=
  | VNone
  | VBool (b : bool)
  | VInt (n : Z)
  | VStr (s : string)
  | VTuple (items : list value)
  | VList (items : list value)
  | VFeature (name : string).

(** [v is None] *)
Definition is_none (v : value) : bool :=
  match v with VNone => true | _ => false end.

(** *** String methods *)

(** [s.startswith(p)] *)
Fixpoint startswith (p s : string) : bool :=
  match p, s with
  | EmptyString, _ => true
  | String a p', String b s' => Ascii.eqb a b && startswith p' s'
  | String _ _, EmptyString => false
  end.

(** [sub in s] *)
Fixpoint contains (sub s : string) : bool :=
  startswith sub s ||
  match s with
  | EmptyString => false
  | String _ s' => contains sub s'
  end.

(** [s.endswith("/")]-style test on the last character. *)
Fixpoint last_char (s : string) : option ascii :=
  match s with
  | EmptyString => None
  | String c EmptyString => Some c
  | String _ s' => last_char s'
  end.

Definition endswith_char (c : ascii) (s : string) : bool :=
  match last_char s with
  | Some d => Ascii.eqb c d
  | None => false
  end.

(** [s.count(sub)]: the number of non-overlapping occurrences, scanning
    from the left; [skip] characters of a match just counted are passed
    over.  For the empty [sub] Python answers [len(s) + 1]. *)
Fixpoint count_from (sub s : string) (skip : nat) : nat :=
  match s with
  | EmptyString => 0%nat
  | String _ s' =>
      match skip with
      | S k => count_from sub s' k
      | O =>
          if startswith sub s
          then S (count_from sub s' (Nat.pred (String.length sub)))
          else count_from sub s' 0%nat
      end
  end.

Definition count (sub s : string) : nat :=
  match sub with
  | EmptyString => S (String.length s)
  | _ => count_from sub s 0%nat
  end.

(** [s.partition(sep)] for a one-character [sep], when [sep] occurs. *)
Fixpoint partition (sep : ascii) (s : string) : option (string * string) :=
  match s with
  | EmptyString => None
  | String c s' =>
      if Ascii.eqb c sep then Some (EmptyString, s')
      else match partition sep s' with
           | Some (l, r) => Some (String c l, r)
           | None => None
           end
  end.

(** The part of [s] before the first [sep], or all of [s]. *)
Definition before (sep : ascii) (s : string) : string :=
  match partition sep s with
  | Some (l, _) => l
  | None => s
  end.

Fixpoint forall_chars (p : ascii -> bool) (s : string) : bool :=
  match s with
  | EmptyString => true
  | String c s' => p c && forall_chars p s'
  end.

Fixpoint drop (n : nat) (s : string) : string :=
  match n, s with
  | O, _ => s
  | S k, String _ s' => drop k s'
  | S _, EmptyString => EmptyString
  end.

End Py.

Export Py.

(** ** The module namespace and its statements *)

(** [name = value] at module level rebinds [name] in the namespace. *)
Definition assign (name : string) (v : value)
    (g : gmap string value) : gmap string value :=
  <[name := v]> g.

(** [from module import name] binds [name]; for [__future__] the object
    bound is the feature descriptor. *)
Definition import_from (module name : string)
    (g : gmap string value) : gmap string value :=
  <[name := VFeature name]> g.

(** Statements in sequence, first to last. *)
Definition run (body : list (gmap string value -> gmap string value))
    (g : gmap string value) : gmap string value :=
  foldl (fun acc stmt => stmt acc) g body.

Notation "x ::= v" := (assign x v) (at level 60, no associativity).

(** ** pelicanconf.py *)

Definition pelicanconf_body : list (gmap string value -> gmap string value) :=
  [ import_from "__future__" "unicode_literals";

    "AUTHOR" ::= VStr "Daniil Baturin";
    "SITENAME" ::= VStr "dmbaturin's blog";
    "SITEURL" ::= VStr "https://blog.baturin.org";

    "PATH" ::= VStr "content";

    "TIMEZONE" ::= VStr "Etc/UTC";

    "DEFAULT_LANG" ::= VStr "en";

    "FEED_ALL_ATOM" ::= VStr "feeds/atom.xml";
    "CATEGORY_FEED_ATOM" ::= VStr "feeds/%s.atom.xml";
    "TRANSLATION_FEED_ATOM" ::= VNone;
    "AUTHOR_FEED_ATOM" ::= VNone;
    "AUTHOR_FEED_RSS" ::= VNone;

    "LINKS" ::= VTuple
      [ VTuple [VStr "dmbaturin's website"; VStr "http://baturin.org/"];
        VTuple [VStr "VyOS project"; VStr "https://www.vyos.io/"] ];

    "DEFAULT_PAGINATION" ::= VInt 10;

    "RELATIVE_URLS" ::= VBool true;

    "STATIC_PATHS" ::= VList [VStr "images"];

    "PIWIK_URL" ::= VStr "matomo.baturin.org";
    "PIWIK_SITE_ID" ::= VStr "blog.baturin.org";

    "DISQUS_SITENAME" ::= VStr "blog-baturin-org" ].

(** Loading the file executes its body in the namespace [g]. *)
Definition pelicanconf (g : gmap string value) : gmap string value :=
  run pelicanconf_body g.

(** The names the module binds, and the namespace of a fresh load. *)
Definition loaded : gmap string value := pelicanconf ∅.

Definition module_names : gset string := dom loaded.

(** ** Syntax of URLs and host names

    An absolute URL with an authority, after RFC 3986, section 3:
    [scheme "://" host path], where the scheme is a letter followed by
    letters, digits, [+], [-] or [.], the host is a non-empty dotted name
    and the path is empty or starts at the first [/]. *)

Definition in_range (lo hi : nat) (c : ascii) : bool :=
  let n := nat_of_ascii c in (lo <=? n)%nat && (n <=? hi)%nat.

Definition is_alpha (c : ascii) : bool := in_range 65 90 c || in_range 97 122 c.
Definition is_digit (c : ascii) : bool := in_range 48 57 c.
Definition is_alnum (c : ascii) : bool := is_alpha c || is_digit c.
Definition is_visible (c : ascii) : bool := in_range 33 126 c.

Definition is_scheme_char (c : ascii) : bool :=
  is_alnum c || Ascii.eqb c "+" || Ascii.eqb c "-" || Ascii.eqb c ".".

Definition is_host_char (c : ascii) : bool :=
  is_alnum c || Ascii.eqb c "-" || Ascii.eqb c ".".

Definition valid_scheme (s : string) : bool :=
  match s with
  | EmptyString => false
  | String c _ => is_alpha c && forall_chars is_scheme_char s
  end.

(** Dotted host name: labels of letters, digits and hyphens, none empty. *)
Definition valid_host (s : string) : bool :=
  match s with
  | EmptyString => false
  | String c _ =>
      is_alnum c && forall_chars is_host_char s
      && negb (contains ".." s) && negb (endswith_char "." s)
  end.

(** [(scheme, host, path)] of [scheme://host path]. *)
Definition url_parts (s : string) : option (string * string * string) :=
  match partition ":" s with
  | Some (scheme, rest) =>
      if startswith "//" rest then
        let r := drop 2 rest in
        let host := before "/" r in
        Some (scheme, host, drop (String.length host) r)
      else None
  | None => None
  end.

Definition url_valid (s : string) : bool :=
  match url_parts s with
  | Some (scheme, host, path) =>
      valid_scheme scheme && valid_host host && forall_chars is_visible path
  | None => false
  end.

Definition url_scheme (s : string) : option string :=
  match url_parts s with
  | Some (scheme, _, _) => Some scheme
  | None => None
  end.

(** ** Reading the blogroll

    [LINKS] as the templates iterate it: [for name, link in LINKS]. *)

Definition pair_of (v : value) : option (value * value) :=
  match v with
  | VTuple [a; b] => Some (a, b)
  | _ => None
  end.

Definition items_of (v : value) : option (list value) :=
  match v with
  | VTuple items | VList items => Some items
  | _ => None
  end.

Definition blogroll (g : gmap string value) : option (list (value * value)) :=
  match g !! "LINKS" with
  | Some v =>
      match items_of v with
      | Some items => mapM pair_of items
      | None => None
      end
  | None => None
  end.

(** ** More of Python's [str]

    The [%] operator with a single [str] right operand, as the feed path
    templates are meant to be used ([CATEGORY_FEED_ATOM % slug]).  The
    directives modelled are [%s] and [%%]; any other character after [%]
    (flags, widths, other conversions) is outside the model and reported
    as such, never as a formatted string. *)

Inductive fmt_result : Type :=
  | Formatted (s : string)
  | NotEnoughArguments     (* TypeError: not enough arguments for format string *)
  | NotAllConverted        (* TypeError: not all arguments converted *)
  | IncompleteFormat       (* ValueError: incomplete format *)
  | Unmodelled.

Definition prepend (p : string) (r : fmt_result) : fmt_result :=
  match r with
  | Formatted s => Formatted (p +:+ s)
  | e => e
  end.

Fixpoint format_go (fmt : string) (args : list string) : fmt_result :=
  match fmt with
  | EmptyString =>
      match args with
      | [] => Formatted EmptyString
      | _ :: _ => NotAllConverted
      end
  | String c rest =>
      if Ascii.eqb c "%" then
        match rest with
        | EmptyString => IncompleteFormat
        | String d rest' =>
            if Ascii.eqb d "%" then prepend "%" (format_go rest' args)
            else if Ascii.eqb d "s" then
              match args with
              | [] => NotEnoughArguments
              | a :: args' => prepend a (format_go rest' args')
              end
            else Unmodelled
        end
      else prepend (String c EmptyString) (format_go rest args)
  end.

(** [fmt % arg] *)
Definition percent_format (fmt arg : string) : fmt_result :=
  format_go fmt [arg].

(** [s.isupper()] on ASCII: no lower-case letter and at least one
    upper-case letter. *)
Fixpoint exists_chars (p : ascii -> bool) (s : string) : bool :=
  match s with
  | EmptyString => false
  | String c s' => p c || exists_chars p s'
  end.

Definition isupper (s : string) : bool :=
  negb (exists_chars (in_range 97 122) s) && exists_chars (in_range 65 90) s.

(** [s.replace(a, b)] for one-character [a] and [b]. *)
Fixpoint replace_char (a b : ascii) (s : string) : string :=
  match s with
  | EmptyString => EmptyString
  | String c s' =>
      String (if Ascii.eqb c a then b else c) (replace_char a b s')
  end.

(** A path that is not empty and does not start at the root. *)
Definition relative_path (s : string) : bool :=
  negb (String.eqb s "") && negb (startswith "/" s).

(** ** The bindings of the body

    The statements of [pelicanconf_body] as (name, value) pairs, in the
    order of the source; [bindings_body] below shows it is the same list. *)
Definition bindings : list (string * value) :=
  [ ("unicode_literals", VFeature "unicode_literals");
    ("AUTHOR", VStr "Daniil Baturin");
    ("SITENAME", VStr "dmbaturin's blog");
    ("SITEURL", VStr "https://blog.baturin.org");
    ("PATH", VStr "content");
    ("TIMEZONE", VStr "Etc/UTC");
    ("DEFAULT_LANG", VStr "en");
    ("FEED_ALL_ATOM", VStr "feeds/atom.xml");
    ("CATEGORY_FEED_ATOM", VStr "feeds/%s.atom.xml");
    ("TRANSLATION_FEED_ATOM", VNone);
    ("AUTHOR_FEED_ATOM", VNone);
    ("AUTHOR_FEED_RSS", VNone);
    ("LINKS", VTuple
      [ VTuple [VStr "dmbaturin's website"; VStr "http://baturin.org/"];
        VTuple [VStr "VyOS project"; VStr "https://www.vyos.io/"] ]);
    ("DEFAULT_PAGINATION", VInt 10);
    ("RELATIVE_URLS", VBool true);
    ("STATIC_PATHS", VList [VStr "images"]);
    ("PIWIK_URL", VStr "matomo.baturin.org");
    ("PIWIK_SITE_ID", VStr "blog.baturin.org");
    ("DISQUS_SITENAME", VStr "blog-baturin-org") ].

Definition bind (kv : string * value) : gmap string value -> gmap string value :=
  assign kv.1 kv.2.

(** ** The namespace after a load *)

Section Load.

Implicit Types (g : gmap string value) (k : string) (v : value).

(** A load overrides the namespace with the module's own bindings. *)
Lemma pelicanconf_union g : pelicanconf g = loaded ∪ g.
Proof.
  unfold loaded, pelicanconf, run, pelicanconf_body.
  cbv [foldl assign import_from].
  rewrite <- !insert_union_l.
  by rewrite (left_id_L ∅ (∪)).
Qed.

Lemma pelicanconf_lookup g k v :
  loaded !! k = Some v → pelicanconf g !! k = Some v.
Proof. rewrite pelicanconf_union. apply lookup_union_Some_l. Qed.

Lemma pelicanconf_frame g k :
  k ∉ module_names → pelicanconf g !! k = g !! k.
Proof.
  intros Hk. rewrite pelicanconf_union.
  apply lookup_union_r. by apply not_elem_of_dom.
Qed.

Lemma module_names_bound k : k ∈ module_names ↔ is_Some (loaded !! k).
Proof. apply elem_of_dom. Qed.

(** The bound names, in the order of the source. *)
Lemma module_names_eq :
  module_names =
    list_to_set
      [ "unicode_literals"; "AUTHOR"; "SITENAME"; "SITEURL"; "PATH";
        "TIMEZONE"; "DEFAULT_LANG"; "FEED_ALL_ATOM"; "CATEGORY_FEED_ATOM";
        "TRANSLATION_FEED_ATOM"; "AUTHOR_FEED_ATOM"; "AUTHOR_FEED_RSS";
        "LINKS"; "DEFAULT_PAGINATION"; "RELATIVE_URLS"; "STATIC_PATHS";
        "PIWIK_URL"; "PIWIK_SITE_ID"; "DISQUS_SITENAME" ].
Proof.
  unfold module_names, loaded, pelicanconf, run, pelicanconf_body.
  cbv [foldl assign import_from list_to_set foldr].
  rewrite !dom_insert_L, dom_empty_L.
  apply set_eq; intros k.
  rewrite !elem_of_union, !elem_of_singleton, elem_of_empty.
  tauto.
Qed.

Lemma pelicanconf_idempotent g : pelicanconf (pelicanconf g) = pelicanconf g.
Proof.
  rewrite !pelicanconf_union, (assoc_L (∪)).
  by rewrite (idemp_L (∪)).
Qed.

End Load.

(** Case analysis over the names the module binds. *)
Ltac each_module_name H :=
  rewrite module_names_eq in H;
  apply elem_of_list_to_set in H;
  repeat (apply elem_of_cons in H as [-> | H]);
  [ .. | by apply elem_of_nil in H ].

(** A lookup in a loaded namespace, settled by evaluation of the body. *)
Ltac loaded_lookup := apply pelicanconf_lookup; vm_compute; reflexivity.

(** ** Required fields *)

(** C1: in every loaded namespace the required settings AUTHOR, SITENAME,
    SITEURL, TIMEZONE and DEFAULT_LANG are bound, each to a string that is
    not empty. *)
Theorem required_fields_present_nonempty (g : gmap string value) :
  Forall (fun k => ∃ s, pelicanconf g !! k = Some (VStr s) ∧ s ≠ "")
    ["AUTHOR"; "SITENAME"; "SITEURL"; "TIMEZONE"; "DEFAULT_LANG"].
Proof.
  repeat apply Forall_cons_2; [ .. | apply Forall_nil_2 ];
    eexists; (split; [ loaded_lookup | discriminate ]).
Qed.

(** C2: DEFAULT_PAGINATION is bound to an [int], the value is strictly
    positive, and it is 10. *)
Theorem default_pagination_positive_ten (g : gmap string value) :
  ∃ n, pelicanconf g !! "DEFAULT_PAGINATION" = Some (VInt n) ∧ 0 < n ∧ n = 10.
Proof. exists 10. split; [ loaded_lookup | lia ]. Qed.

(** ** Feed settings *)

(** C3: a setting of the module for per-category feeds (a name that
    starts with CATEGORY_FEED_) that is enabled, that is bound to a
    string and not to [None], contains the placeholder [%s]. *)
Theorem category_feed_template_has_placeholder
    (g : gmap string value) (k s : string) :
  k ∈ module_names →
  startswith "CATEGORY_FEED_" k = true →
  pelicanconf g !! k = Some (VStr s) →
  contains "%s" s = true.
Proof.
  intros Hk Hcat Hs.
  each_module_name Hk; try discriminate Hcat.
  rewrite (pelicanconf_lookup g _ (VStr "feeds/%s.atom.xml")) in Hs
    by (vm_compute; reflexivity).
  by injection Hs as <-.
Qed.

Lemma category_feed_template_has_placeholder_witness :
  "CATEGORY_FEED_ATOM" ∈ module_names ∧
  startswith "CATEGORY_FEED_" "CATEGORY_FEED_ATOM" = true ∧
  pelicanconf ∅ !! "CATEGORY_FEED_ATOM" = Some (VStr "feeds/%s.atom.xml") ∧
  contains "%s" "feeds/%s.atom.xml" = true.
Proof.
  assert (Hk : "CATEGORY_FEED_ATOM" ∈ module_names)
    by (apply module_names_bound; eexists; vm_compute; reflexivity).
  assert (Hs : pelicanconf ∅ !! "CATEGORY_FEED_ATOM"
               = Some (VStr "feeds/%s.atom.xml"))
    by (vm_compute; reflexivity).
  split; [ exact Hk | ]. split; [ reflexivity | ]. split; [ exact Hs | ].
  exact (category_feed_template_has_placeholder
           ∅ "CATEGORY_FEED_ATOM" "feeds/%s.atom.xml" Hk eq_refl Hs).
Defined.

(** C4: every feed setting of the module (a bound name containing FEED)
    is bound to [None] or to a string, nothing else; it is [None] exactly
    for TRANSLATION_FEED_ATOM, AUTHOR_FEED_ATOM and AUTHOR_FEED_RSS. *)
Theorem feed_settings_template_or_none (g : gmap string value) (k : string) :
  k ∈ module_names →
  contains "FEED" k = true →
  ∃ v, pelicanconf g !! k = Some v
       ∧ (v = VNone ∨ ∃ s, v = VStr s)
       ∧ is_none v
         = bool_decide
             (k ∈ ["TRANSLATION_FEED_ATOM"; "AUTHOR_FEED_ATOM";
                   "AUTHOR_FEED_RSS"]).
Proof.
  intros Hk Hfeed.
  each_module_name Hk; try discriminate Hfeed;
    eexists; (split; [ loaded_lookup | ]);
    (split; [ first [ by left | right; by eexists ] | by vm_compute ]).
Qed.

Lemma feed_settings_template_or_none_witness :
  "TRANSLATION_FEED_ATOM" ∈ module_names ∧
  contains "FEED" "TRANSLATION_FEED_ATOM" = true ∧
  ∃ v, pelicanconf ∅ !! "TRANSLATION_FEED_ATOM" = Some v
       ∧ (v = VNone ∨ ∃ s, v = VStr s)
       ∧ is_none v
         = bool_decide
             ("TRANSLATION_FEED_ATOM"
                ∈ ["TRANSLATION_FEED_ATOM"; "AUTHOR_FEED_ATOM";
                   "AUTHOR_FEED_RSS"]).
Proof.
  assert (Hk : "TRANSLATION_FEED_ATOM" ∈ module_names)
    by (apply module_names_bound; eexists; vm_compute; reflexivity).
  split; [ exact Hk | ]. split; [ reflexivity | ].
  exact (feed_settings_template_or_none ∅ "TRANSLATION_FEED_ATOM" Hk eq_refl).
Defined.

(** C10: CATEGORY_FEED_ATOM holds exactly one [%s], FEED_ALL_ATOM holds no
    [%s] (no [%] at all), and neither path begins with [/]. *)
Theorem feed_paths_placeholders_relative (g : gmap string value) :
  ∃ cat all,
    pelicanconf g !! "CATEGORY_FEED_ATOM" = Some (VStr cat)
    ∧ pelicanconf g !! "FEED_ALL_ATOM" = Some (VStr all)
    ∧ count "%s" cat = 1%nat
    ∧ count "%s" all = 0%nat ∧ contains "%" all = false
    ∧ startswith "/" cat = false ∧ startswith "/" all = false.
Proof.
  exists "feeds/%s.atom.xml", "feeds/atom.xml".
  split; [ loaded_lookup | ]. split; [ loaded_lookup | ].
  by vm_compute.
Qed.

(** ** Blogroll *)

(** C5: LINKS is a sequence of two-element tuples (label, URL); in each
    of them the label is a non-empty string and the URL is a
    syntactically valid absolute URL. *)
Theorem blogroll_entries_wellformed (g : gmap string value) :
  ∃ entries,
    blogroll (pelicanconf g) = Some entries
    ∧ Forall
        (fun e => ∃ label url,
           e = (VStr label, VStr url) ∧ label ≠ "" ∧ url_valid url = true)
        entries.
Proof.
  unfold blogroll.
  rewrite (pelicanconf_lookup g "LINKS" _ eq_refl).
  eexists. split; [ reflexivity | ].
  repeat apply Forall_cons_2; [ .. | apply Forall_nil_2 ];
    do 2 eexists; (split; [ reflexivity | ]);
    (split; [ discriminate | by vm_compute ]).
Qed.

(** C6: LINKS is the tuple of the two pairs of the source, in the order
    of the source: position 0 is dmbaturin's website, position 1 is the
    VyOS project, and reading the blogroll yields them in that order. *)
Theorem blogroll_in_source_order (g : gmap string value) :
  ∃ items,
    pelicanconf g !! "LINKS" = Some (VTuple items)
    ∧ items !! 0%nat
      = Some (VTuple [VStr "dmbaturin's website"; VStr "http://baturin.org/"])
    ∧ items !! 1%nat
      = Some (VTuple [VStr "VyOS project"; VStr "https://www.vyos.io/"])
    ∧ length items = 2%nat
    ∧ blogroll (pelicanconf g)
      = Some [ (VStr "dmbaturin's website", VStr "http://baturin.org/");
               (VStr "VyOS project", VStr "https://www.vyos.io/") ].
Proof.
  eexists. split; [ loaded_lookup | ].
  do 3 (split; [ reflexivity | ]).
  unfold blogroll.
  by rewrite (pelicanconf_lookup g "LINKS" _ eq_refl).
Qed.

(** ** Loading twice *)

(** C7: two loads, whatever the namespaces [g1] and [g2] they start from,
    bind every name of the module to the same value, the value of a fresh
    load; and a load over an already loaded namespace changes nothing. *)
Theorem load_twice_identical (g1 g2 : gmap string value) (k : string) :
  k ∈ module_names →
  pelicanconf g1 !! k = pelicanconf g2 !! k
  ∧ is_Some (pelicanconf g1 !! k)
  ∧ pelicanconf g1 !! k = loaded !! k
  ∧ pelicanconf (pelicanconf g1) = pelicanconf g1.
Proof.
  intros Hk. apply module_names_bound in Hk as [v Hv].
  rewrite !(pelicanconf_lookup _ k v Hv), Hv.
  split; [ done | ]. split; [ by eexists | ].
  split; [ done | apply pelicanconf_idempotent ].
Qed.

Lemma load_twice_identical_witness :
  "AUTHOR" ∈ module_names ∧
  (pelicanconf ∅ !! "AUTHOR"
   = pelicanconf {[ "AUTHOR" := VNone; "x" := VInt 1 ]} !! "AUTHOR"
   ∧ is_Some (pelicanconf ∅ !! "AUTHOR")
   ∧ pelicanconf ∅ !! "AUTHOR" = loaded !! "AUTHOR"
   ∧ pelicanconf (pelicanconf ∅) = pelicanconf ∅).
Proof.
  assert (Hk : "AUTHOR" ∈ module_names)
    by (apply module_names_bound; eexists; vm_compute; reflexivity).
  split; [ exact Hk | ].
  exact (load_twice_identical
           ∅ {[ "AUTHOR" := VNone; "x" := VInt 1 ]} "AUTHOR" Hk).
Defined.

(** ** Site URL *)

(** C9: SITEURL is an absolute URL whose scheme is https and whose last
    character is not [/]; appending [/] and a path to it gives a URL of
    the same host whose path is [/] followed by that path. *)
Theorem siteurl_https_no_trailing_slash (g : gmap string value) :
  ∃ s,
    pelicanconf g !! "SITEURL" = Some (VStr s)
    ∧ url_valid s = true
    ∧ url_scheme s = Some "https"
    ∧ endswith_char "/" s = false
    ∧ ∀ p : string,
        url_parts (s +:+ "/" +:+ p)
        = Some ("https", "blog.baturin.org", "/" +:+ p).
Proof.
  eexists. split; [ loaded_lookup | ].
  do 3 (split; [ by vm_compute | ]).
  intros p. reflexivity.
Qed.

(** ** Analytics and comments identifiers *)

(** The value of PIWIK_URL has no scheme: it is not a URL. *)
Lemma piwik_url_is_not_a_url :
  ¬ ∃ s, loaded !! "PIWIK_URL" = Some (VStr s) ∧ url_valid s = true.
Proof.
  intros (s & Hs & Hurl).
  assert (Hl : loaded !! "PIWIK_URL" = Some (VStr "matomo.baturin.org"))
    by (vm_compute; reflexivity).
  rewrite Hl in Hs. injection Hs as <-.
  vm_compute in Hurl. discriminate Hurl.
Qed.

(** C8 (as the code has it): the names of the module that start with
    PIWIK_ are exactly PIWIK_URL and PIWIK_SITE_ID; these two and
    DISQUS_SITENAME are bound to non-empty strings; the value of PIWIK_URL
    is a bare host name, with no scheme and no [:], not a URL. *)
Theorem analytics_identifiers (g : gmap string value) :
  filter (fun k => startswith "PIWIK_" k = true) module_names
  = {[ "PIWIK_URL"; "PIWIK_SITE_ID" ]}
  ∧ Forall (fun k => ∃ s, pelicanconf g !! k = Some (VStr s) ∧ s ≠ "")
      ["PIWIK_URL"; "PIWIK_SITE_ID"; "DISQUS_SITENAME"]
  ∧ ∃ host,
      pelicanconf g !! "PIWIK_URL" = Some (VStr host)
      ∧ valid_host host = true
      ∧ contains ":" host = false
      ∧ url_scheme host = None
      ∧ url_valid host = false.
Proof.
  split; [ | split ].
  - apply set_eq; intros k.
    rewrite elem_of_filter, elem_of_union, !elem_of_singleton.
    split.
    + intros [Hp Hk]. each_module_name Hk; try discriminate Hp; tauto.
    + intros [-> | ->];
        (split; [ reflexivity
                | apply module_names_bound; eexists; vm_compute; reflexivity ]).
  - repeat apply Forall_cons_2; [ .. | apply Forall_nil_2 ];
      eexists; (split; [ loaded_lookup | discriminate ]).
  - eexists. split; [ loaded_lookup | by vm_compute ].
Qed.

(** ** Auxiliary facts on strings *)

Lemma length_app_str (a b : string) :
  String.length (a +:+ b) = (String.length a + String.length b)%nat.
Proof. induction a as [| c a IH]; simpl; [ reflexivity | by rewrite IH ]. Qed.

Lemma append_inv_tail (s1 s2 t : string) : s1 +:+ t = s2 +:+ t → s1 = s2.
Proof.
  revert s2. induction s1 as [| a s1 IH]; intros [| b s2] H.
  - reflexivity.
  - apply (f_equal String.length) in H.
    rewrite !length_app_str in H. simpl in H. lia.
  - apply (f_equal String.length) in H.
    rewrite !length_app_str in H. simpl in H. lia.
  - unfold String.append in H; fold String.append in H.
    injection H as -> H. f_equal. by apply IH.
Qed.


(** ** The body as a list of bindings *)

Lemma bindings_body : pelicanconf_body = map bind bindings.
Proof. reflexivity. Qed.

Lemma bindings_NoDup : NoDup (bindings.*1).
Proof. apply (bool_decide_unpack _). by vm_compute. Qed.

(** Running bindings one after the other: the last binding of a name
    wins, and what the list does not bind is kept. *)
Lemma run_bind_list (bs : list (string * value)) (g : gmap string value) :
  run (map bind bs) g = list_to_map (reverse bs) ∪ g.
Proof.
  revert g. induction bs as [| [k v] bs IH]; intros g.
  - change (g = ∅ ∪ g). by rewrite (left_id_L ∅ (∪)).
  - change (run (map bind ((k, v) :: bs)) g)
      with (run (map bind bs) (<[k := v]> g)).
    rewrite IH, reverse_cons, list_to_map_app, <- (assoc_L (∪)).
    f_equal. simpl.
    by rewrite <- insert_union_l, (left_id_L ∅ (∪)).
Qed.

(** The category feed template applied to a slug. *)
Lemma category_format (slug : string) :
  percent_format "feeds/%s.atom.xml" slug
  = Formatted ("feeds/" +:+ slug +:+ ".atom.xml").
Proof. reflexivity. Qed.

Lemma not_module_name (k : string) : loaded !! k = None → k ∉ module_names.
Proof. intros H. by apply not_elem_of_dom. Qed.

(** ** What a load does to the rest of the namespace *)




(** X3: no name is bound twice: the module binds as many names as its
    body has statements, nineteen. *)
Theorem each_statement_binds_its_own_name :
  size module_names = length pelicanconf_body
  ∧ length pelicanconf_body = 19%nat.
Proof.
  unfold module_names, loaded, pelicanconf.
  rewrite size_dom, bindings_body, run_bind_list.
  rewrite (right_id_L ∅ (∪)), map_size_list_to_map.
  - by rewrite length_reverse, length_map.
  - rewrite fmap_reverse, reverse_Permutation. apply bindings_NoDup.
Qed.



(** X5: SOCIAL, whose assignment is commented out, is not bound: a fresh
    load has no such name, and a load over a namespace that has one
    leaves it as it was. *)
Theorem social_is_not_bound (g : gmap string value) :
  ("SOCIAL" ∉ module_names)
  ∧ pelicanconf ∅ !! "SOCIAL" = None
  ∧ pelicanconf g !! "SOCIAL" = g !! "SOCIAL".
Proof.
  assert (Hk : "SOCIAL" ∉ module_names)
    by (apply not_module_name; vm_compute; reflexivity).
  split; [ exact Hk | ]. split; [ by vm_compute | ].
  by apply pelicanconf_frame.
Qed.

(** X6: every name the module binds is upper case as [str.isupper] has
    it, but for the name bound by the future import. *)
Theorem setting_names_are_upper_case (k : string) :
  k ∈ module_names →
  isupper k = negb (String.eqb k "unicode_literals").
Proof. intros Hk. each_module_name Hk; by vm_compute. Qed.

Lemma setting_names_are_upper_case_witness :
  "DEFAULT_PAGINATION" ∈ module_names
  ∧ isupper "DEFAULT_PAGINATION"
    = negb (String.eqb "DEFAULT_PAGINATION" "unicode_literals").
Proof.
  assert (Hk : "DEFAULT_PAGINATION" ∈ module_names)
    by (apply module_names_bound; eexists; vm_compute; reflexivity).
  split; [ exact Hk | ].
  exact (setting_names_are_upper_case "DEFAULT_PAGINATION" Hk).
Defined.

(** ** Feed paths by category *)

(** X7: applying CATEGORY_FEED_ATOM to a category slug with [%] never
    raises: for every slug it gives the path feeds/<slug>.atom.xml. *)
Theorem category_feed_path_of_slug (g : gmap string value) (slug : string) :
  ∃ t,
    pelicanconf g !! "CATEGORY_FEED_ATOM" = Some (VStr t)
    ∧ percent_format t slug
      = Formatted ("feeds/" +:+ slug +:+ ".atom.xml").
Proof. eexists. split; [ loaded_lookup | apply category_format ]. Qed.

(** X8: two categories share their feed path only if they share their
    slug. *)
Theorem category_feed_paths_distinct
    (g : gmap string value) (t slug1 slug2 : string) :
  pelicanconf g !! "CATEGORY_FEED_ATOM" = Some (VStr t) →
  percent_format t slug1 = percent_format t slug2 →
  slug1 = slug2.
Proof.
  intros Ht Heq.
  rewrite (pelicanconf_lookup g _ (VStr "feeds/%s.atom.xml")) in Ht
    by (vm_compute; reflexivity).
  injection Ht as <-. rewrite !category_format in Heq.
  injection Heq as Heq.
  apply (append_inv_tail _ _ ".atom.xml").
  exact Heq.
Qed.

Lemma category_feed_paths_distinct_witness :
  pelicanconf ∅ !! "CATEGORY_FEED_ATOM" = Some (VStr "feeds/%s.atom.xml")
  ∧ percent_format "feeds/%s.atom.xml" "misc"
    = percent_format "feeds/%s.atom.xml" "misc"
  ∧ "misc" = "misc".
Proof.
  assert (Ht : pelicanconf ∅ !! "CATEGORY_FEED_ATOM"
               = Some (VStr "feeds/%s.atom.xml"))
    by (vm_compute; reflexivity).
  split; [ exact Ht | ]. split; [ reflexivity | ].
  exact (category_feed_paths_distinct
           ∅ "feeds/%s.atom.xml" "misc" "misc" Ht eq_refl).
Defined.

(** X9: no category slug, the empty one included, gives the path of the
    all-content feed: a category feed never takes the place of
    FEED_ALL_ATOM. *)
Theorem category_feed_never_the_all_feed
    (g : gmap string value) (slug : string) :
  ∃ t a,
    pelicanconf g !! "CATEGORY_FEED_ATOM" = Some (VStr t)
    ∧ pelicanconf g !! "FEED_ALL_ATOM" = Some (VStr a)
    ∧ percent_format t slug ≠ Formatted a.
Proof.
  do 2 eexists. split; [ loaded_lookup | ]. split; [ loaded_lookup | ].
  rewrite category_format. intros H. injection H as H.
  apply (f_equal String.length) in H.
  rewrite !length_app_str in H. simpl in H. lia.
Qed.

(** X10: FEED_ALL_ATOM has no directive: applied to an argument with [%]
    it raises the TypeError of an argument left unconverted, whatever the
    argument. *)
Theorem all_feed_path_takes_no_argument
    (g : gmap string value) (arg : string) :
  ∃ a,
    pelicanconf g !! "FEED_ALL_ATOM" = Some (VStr a)
    ∧ percent_format a arg = NotAllConverted.
Proof. eexists. split; [ loaded_lookup | reflexivity ]. Qed.



(** ** Identifiers and paths *)

(** X12: the identifiers given to the third-party services follow the
    site: PIWIK_SITE_ID is the host of SITEURL, and DISQUS_SITENAME is
    that host with every [.] turned into [-]. *)
Theorem service_identifiers_follow_site_host (g : gmap string value) :
  ∃ site host,
    pelicanconf g !! "SITEURL" = Some (VStr site)
    ∧ url_parts site = Some ("https", host, "")
    ∧ pelicanconf g !! "PIWIK_SITE_ID" = Some (VStr host)
    ∧ pelicanconf g !! "DISQUS_SITENAME"
      = Some (VStr (replace_char "." "-" host)).
Proof.
  exists "https://blog.baturin.org", "blog.baturin.org".
  split; [ loaded_lookup | ]. split; [ by vm_compute | ].
  split; loaded_lookup.
Qed.

(** X13: the settings the templates and the copy of static files read
    beside the claims: PATH is a relative, non-empty path; RELATIVE_URLS
    is the boolean [True]; STATIC_PATHS is a non-empty list of relative,
    non-empty paths. *)
Theorem content_paths_and_flag (g : gmap string value) :
  ∃ path flag dirs,
    pelicanconf g !! "PATH" = Some (VStr path)
    ∧ relative_path path = true
    ∧ pelicanconf g !! "RELATIVE_URLS" = Some (VBool flag) ∧ flag = true
    ∧ pelicanconf g !! "STATIC_PATHS" = Some (VList dirs) ∧ dirs ≠ []
    ∧ Forall (fun d => ∃ s, d = VStr s ∧ relative_path s = true) dirs.
Proof.
  do 3 eexists. split; [ loaded_lookup | ]. split; [ by vm_compute | ].
  split; [ loaded_lookup | ]. split; [ reflexivity | ].
  split; [ loaded_lookup | ]. split; [ discriminate | ].
  apply Forall_cons_2; [ | apply Forall_nil_2 ].
  eexists. split; [ reflexivity | by vm_compute ].
Qed.
